(** * Tello-Python: the H.264 decoder shim

    A shallow embedding of
    [Tello_Video_With_Pose_Recognition/opencv_h264_decoder.py]:
    the three decoder classes ([OpenCVH264Decoder], [H264Decoder],
    [FFmpegH264Decoder]) and the synthetic test frame
    ([create_dummy_frame]); of the two display functions of
    [tello_state.py] ([restore_terminal], [report]); and of the two
    calibration procedures ([quick_calibrate], [calibrate_tello]).

    Python objects are mutable and methods may raise and print, so every
    method is a computation in a small state-and-exception monad over the
    receiver object and the trace of observable effects.  The numpy calls
    of [create_dummy_frame] are modelled on IEEE binary64 floats (the
    kernel's primitive floats), since [np.linspace] computes in float64
    before the values are stored into a uint8 array. *)

From Stdlib Require Import ZArith List Lia Bool String Strings.Byte DecimalString.
From Stdlib Require Import Uint63 Floats.PrimFloat Floats.SpecFloat Floats.FloatOps.
Import ListNotations.
Open Scope Z_scope.

(** ** A small model of the Python runtime *)

Module Py.

(** [bytes] and [bytearray] values. *)
Definition bytes : Type := list byte.

(** Exceptions derived from [Exception], each with its message. *)
Inductive exn : Type :=
| ValueError (msg : string)
| TypeError (msg : string)
| RuntimeError (msg : string).

(** [str(e)]: the text that [f"{e}"] interpolates. *)
Definition str_exn (e : exn) : string :=
  match e with
  | ValueError msg | TypeError msg | RuntimeError msg => msg
  end.

(** How a call ends: it returns a value or raises. *)
Inductive outcome (A : Type) : Type :=
| Return (a : A)
| Raise (e : exn).
Arguments Return {A} a.
Arguments Raise {A} e.

(** Effects visible outside the object: a line written by [print], and an
    external process started through the [subprocess] module. *)
Inductive event : Type :=
| Print (line : string)
| Spawn (argv : list string).

(** The receiver object ([self]) together with the effects so far. *)
Record world (S : Type) : Type := World { self : S; trace : list event }.
Arguments World {S} self trace.
Arguments self {S} w.
Arguments trace {S} w.

(** A method body: it may mutate [self], emit effects, and return or
    raise.  Mutations made before a raise persist, as in Python. *)
Definition M (S A : Type) : Type := world S -> outcome A * world S.

Definition ret {S A} (a : A) : M S A := fun w => (Return a, w).

Definition bind {S A B} (m : M S A) (k : A -> M S B) : M S B :=
  fun w =>
    match m w with
    | (Return a, w') => k a w'
    | (Raise e, w') => (Raise e, w')
    end.

Definition raise {S A} (e : exn) : M S A := fun w => (Raise e, w).

(** [try: body / except Exception as e: handler e]. *)
Definition try_except {S A} (body : M S A) (handler : exn -> M S A) : M S A :=
  fun w =>
    match body w with
    | (Return a, w') => (Return a, w')
    | (Raise e, w') => handler e w'
    end.

Definition get_self {S} : M S S := fun w => (Return (self w), w).

Definition modify_self {S} (f : S -> S) : M S unit :=
  fun w => (Return tt, World (f (self w)) (trace w)).

Definition print {S} (line : string) : M S unit :=
  fun w => (Return tt, World (self w) (trace w ++ [Print line])).

(** The result of a call that touches neither [self] nor the trace. *)
Definition lift_outcome {S A} (o : outcome A) : M S A := fun w => (o, w).

(** A method call on an attribute of [self] (as in
    [self.decoder.decode(...)]): the callee runs on the attribute, which
    is the same object before and after, so its mutations are seen
    through [self]. *)
Definition on_attr {S T A} (get : S -> T) (set : T -> S -> S) (m : M T A) : M S A :=
  fun w =>
    match m (World (get (self w)) (trace w)) with
    | (o, w') => (o, World (set (self w') (self w)) (trace w'))
    end.

(** [len(x)]. *)
Definition len {A} (l : list A) : Z := Z.of_nat (List.length l).

(** Truthiness of a sequence ([if x:]): non-empty. *)
Definition truthy {A} (l : list A) : bool :=
  match l with [] => false | _ :: _ => true end.

(** Successive calls of one method on one object, each with its own
    argument; the outcomes are collected in call order. *)
Fixpoint run_calls {S A B} (f : B -> M S A) (args : list B) (w : world S)
  : list (outcome A) * world S :=
  match args with
  | [] => ([], w)
  | a :: rest =>
      let '(o, w1) := f a w in
      let '(os, w2) := run_calls f rest w1 in
      (o :: os, w2)
  end.

End Py.

Declare Scope py_scope.
Delimit Scope py_scope with py.
Notation "x <- m ;; k" := (Py.bind m (fun x => k))
  (at level 61, m at next level, right associativity) : py_scope.
Notation "m ;; k" := (Py.bind m (fun _ => k))
  (at level 61, right associativity) : py_scope.

(** The same sequencing for calls that only return or raise. *)
Definition outcome_bind {A B} (o : Py.outcome A) (k : A -> Py.outcome B) : Py.outcome B :=
  match o with
  | Py.Return a => k a
  | Py.Raise e => Py.Raise e
  end.

Declare Scope outcome_scope.
Delimit Scope outcome_scope with outcome.
Notation "x <- o ;; k" := (outcome_bind o (fun x => k))
  (at level 61, o at next level, right associativity) : outcome_scope.

(** ** The numpy calls used by the decoder module *)

Module Np.
Import Py.

(** A Python [int] as a float64, rounded to nearest even. *)
Definition float_of_Z (z : Z) : float :=
  SF2Prim (binary_normalize prec emax z 0 false).

(** The integer part of a finite float64 (rounding toward zero). *)
Definition trunc (f : float) : Z :=
  match Prim2SF f with
  | S754_finite s m e =>
      let a := if 0 <=? e then Z.pos m * 2 ^ e else Z.pos m / 2 ^ (- e) in
      if s then - a else a
  | _ => 0
  end.

(** Storing a float64 into a [uint8] cell: the C cast, which truncates
    toward zero; the values stored here lie in [0, 255]. *)
Definition to_uint8 (f : float) : Z := trunc f mod 256.

(** A three-dimensional [uint8] array: its shape, and its cells as rows of
    pixels of channels. *)
Record ndarray : Type := NdArray {
  shape : Z * Z * Z;
  data : list (list (list Z))
}.

Definition string_of_Z (z : Z) : string := NilZero.string_of_int (Z.to_int z).

(** The range of numpy's index type [intp] on a 64-bit platform:
    [-2^63 .. 2^63 - 1]. *)
Definition intp_max : Z := 9223372036854775807.
Definition intp_min : Z := -9223372036854775808.

Definition fits_intp (d : Z) : bool := (intp_min <=? d) && (d <=? intp_max).

(** One step of the size check that numpy makes when it creates an array:
    a dimension of 0 is skipped, a negative one is refused, and the byte
    count so far is multiplied by the dimension unless that leaves the
    index type. *)
Definition grow (nbytes : outcome Z) (dim : Z) : outcome Z :=
  match nbytes with
  | Raise e => Raise e
  | Return n =>
      if dim =? 0 then Return n
      else if dim <? 0
      then Raise (ValueError "negative dimensions are not allowed")
      else if n * dim >? intp_max
      then Raise (ValueError "array is too big; `arr.size * arr.dtype.itemsize` is larger than the maximum possible size.")
      else Return (n * dim)
  end.

(** The size check over all dimensions, starting from the item size. *)
Definition array_nbytes (itemsize : Z) (dims : list Z) : outcome Z :=
  fold_left grow dims (Return itemsize).

(** [np.zeros((d0, d1, d2), dtype=np.uint8)]: the dimensions are first
    converted to the index type, then checked as above.  The allocation
    itself is taken to succeed: the memory of the machine is not part of
    the model. *)
Definition zeros (shp : Z * Z * Z) : outcome ndarray :=
  let '(d0, d1, d2) := shp in
  if negb (fits_intp d0 && fits_intp d1 && fits_intp d2)
  then Raise (ValueError "Maximum allowed dimension exceeded")
  else
    match array_nbytes 1 [d0; d1; d2] with
    | Raise e => Raise e
    | Return _ =>
        Return (NdArray shp
                  (repeat (repeat (repeat 0 (Z.to_nat d2)) (Z.to_nat d1)) (Z.to_nat d0)))
    end.

(** [np.arange(0, num, dtype=float64)] for a [num] inside the index type:
    an array of [max(0, num)] items of 8 bytes, under the same size check.
    ([create_dummy_frame] passes the width that [np.zeros] has just
    accepted, so no other [num] reaches this call.) *)
Definition arange (num : Z) : outcome (list float) :=
  match array_nbytes 8 [Z.max 0 num] with
  | Raise e => Raise e
  | Return _ =>
      Return (map (fun i => float_of_Z (Z.of_nat i)) (seq 0 (Z.to_nat num)))
  end.

(** [y[-1] = v] on a non-empty vector. *)
Definition set_last {A} (v : A) (y : list A) : list A := removelast y ++ [v].

(** [np.linspace(start, stop, num)] with its defaults ([endpoint=True],
    float64 result), following numpy's implementation: the samples are
    [arange(num) * step + start] with [step = (stop - start) / (num - 1)],
    and the last one is overwritten with [stop]. *)
Definition linspace (start stop : float) (num : Z) : outcome (list float) :=
  if num <? 0
  then Raise (ValueError ("Number of samples, " ++ string_of_Z num ++ ", must be non-negative."))
  else
    let div := num - 1 in
    let delta := (stop - start)%float in
    match arange num with
    | Raise e => Raise e
    | Return y =>
        let y :=
          if 0 <? div then
            let step := (delta / float_of_Z div)%float in
            if (step =? 0)%float
            then map (fun v => (v / float_of_Z div * delta)%float) y
            else map (fun v => (v * step)%float) y
          else map (fun v => (v * delta)%float) y in
        let y := map (fun v => (v + start)%float) y in
        Return (if 1 <? num then set_last stop y else y)
    end.

(** [px[k] = v] for an index inside the pixel. *)
Fixpoint set_nth {A} (k : nat) (v : A) (px : list A) : list A :=
  match px, k with
  | [], _ => []
  | _ :: rest, O => v :: rest
  | c :: rest, S k' => c :: set_nth k' v rest
  end.

(** One row of [a[:, :, k] = vals]: cell [k] of the pixel in column [j]
    receives [vals[j]], cast to [uint8]. *)
Definition store_row (k : nat) (vals : list float) (row : list (list Z)) : list (list Z) :=
  map (fun pv => set_nth k (to_uint8 (snd pv)) (fst pv)) (combine row vals).

(** [a[:, :, k] = vals] for a one-dimensional [vals]: it is broadcast over
    the rows when its length is the width of [a] (or 1), and the
    assignment raises otherwise. *)
Definition setitem_channel (k : nat) (a : ndarray) (vals : list float) : outcome ndarray :=
  let '(_, d1, _) := shape a in
  if len vals =? d1
  then Return (NdArray (shape a) (map (store_row k vals) (data a)))
  else
    match vals with
    | [v] => Return (NdArray (shape a)
                       (map (store_row k (repeat v (Z.to_nat d1))) (data a)))
    | _ => Raise (ValueError "could not broadcast input array")
    end.

End Np.

(** A decoded frame as the decoders return it:
    [(frame, width, height, linesize)]. *)
Definition DecodedFrame : Type := Np.ndarray * Z * Z * Z.

(** ** class OpenCVH264Decoder *)

Module OpenCVH264Decoder.
Import Py.

Record t : Type := Build {
  frame_buffer : bytes;
  last_frames : list DecodedFrame
}.

Definition __init__ : t := Build [] [].

(** [self.frame_buffer = b]. *)
Definition set_frame_buffer (b : bytes) (d : t) : t := Build b (last_frames d).

(** [self.frame_buffer.extend(packet_data)]. *)
Definition extend_frame_buffer (packet_data : bytes) (d : t) : t :=
  set_frame_buffer (frame_buffer d ++ packet_data) d.

(** [_decode_h264_buffer]: the decode step itself. *)
Definition _decode_h264_buffer (buffer_bytes : bytes) : outcome (list DecodedFrame) :=
  let frames := [] in
  Return frames.

Section Decode.
(** The decode step that [decode] calls as [self._decode_h264_buffer];
    it reads the buffer snapshot only. *)
Variable decode_step : bytes -> outcome (list DecodedFrame).

Definition decode_with (packet_data : bytes) : M t (list DecodedFrame) :=
  (let frames := [] in
   if negb (truthy packet_data) then ret frames
   else
     modify_self (extend_frame_buffer packet_data) ;;
     try_except
       (d <- get_self ;;
        let buffer_bytes := frame_buffer d in
        decoded_frames <- lift_outcome (decode_step buffer_bytes) ;;
        if truthy decoded_frames
        then modify_self (set_frame_buffer []) ;; ret decoded_frames
        else ret frames)
       (fun e =>
          print ("Decode error: " ++ str_exn e) ;;
          d <- get_self ;;
          (if len (frame_buffer d) >? 1024 * 1024
           then modify_self (set_frame_buffer [])
           else ret tt) ;;
          ret frames))%py.
End Decode.

(** [decode], with the decode step of this class. *)
Definition decode (packet_data : bytes) : M t (list DecodedFrame) :=
  decode_with _decode_h264_buffer packet_data.

(** [create_dummy_frame(width=960, height=720)] (a static method). *)
Definition create_dummy_frame (width height : Z) : outcome Np.ndarray :=
  (frame <- Np.zeros (height, width, 3) ;;
   gradient <- Np.linspace (Np.float_of_Z 0) (Np.float_of_Z 255) width ;;
   Np.setitem_channel 0 frame gradient)%outcome.

Definition create_dummy_frame_default : outcome Np.ndarray :=
  create_dummy_frame 960 720.

End OpenCVH264Decoder.

(** ** class H264Decoder *)

Module H264Decoder.
Import Py.

Record t : Type := Build {
  decoder : OpenCVH264Decoder.t;
  use_fallback : bool
}.

Definition __init__ : t := Build OpenCVH264Decoder.__init__ true.

Definition set_decoder (d : OpenCVH264Decoder.t) (f : t) : t :=
  Build d (use_fallback f).

Definition decode (packet_data : bytes) : M t (list DecodedFrame) :=
  (f <- get_self ;;
   if negb (use_fallback f)
   then on_attr decoder set_decoder (OpenCVH264Decoder.decode packet_data)
   else ret [])%py.

End H264Decoder.

(** ** class FFmpegH264Decoder *)

Module FFmpegH264Decoder.
Import Py.

(** [self.subprocess] is bound only when the import succeeded. *)
Record t : Type := Build {
  subprocess : option unit;
  ffmpeg_available : bool
}.

(** [__init__]; [import_ok] tells whether [import subprocess] succeeds. *)
Definition __init__ (import_ok : bool) : t :=
  if import_ok then Build (Some tt) true else Build None false.

Definition decode (packet_data : bytes) : M t (list DecodedFrame) :=
  (f <- get_self ;;
   if negb (ffmpeg_available f)
   then ret []
   else ret [])%py.

End FFmpegH264Decoder.

(** ** tello_state.py: the terminal display

    [restore_terminal] and [report] talk to the terminal through the curses
    library.  Whether a curses call succeeds depends on the terminal, so the
    library is a parameter: it answers each call from the history of the
    calls attempted so far. *)

Module TelloState.
Import Py.

(** The window object that [curses.initscr()] returns. *)
Inductive window : Type := Window (id : nat).

(** The curses calls of the module: three functions of the library and
    three methods of a window. *)
Inductive curses_call : Type :=
| Echo
| Nocbreak
| Endwin
| Clear (win : window)
| Addstr (win : window) (y x : Z) (text : string)
| Refresh (win : window).

(** The terminal as the module drives it: the calls attempted so far, in
    order, each with whether it succeeded. *)
Definition terminal : Type := list (curses_call * bool).

Section Curses.
(** The library's answer to a call after a given history: [None] when the
    call succeeds, [Some e] when it raises [e]. *)
Variable curses_raises : terminal -> curses_call -> option exn.

(** One call into the library. *)
Definition curses (c : curses_call) : M terminal unit :=
  fun w =>
    match curses_raises (self w) c with
    | None => (Return tt, World (self w ++ [(c, true)]) (trace w))
    | Some e => (Raise e, World (self w ++ [(c, false)]) (trace w))
    end.

Definition restore_terminal : M terminal unit :=
  (try_except
     (curses Echo ;;
      curses Nocbreak ;;
      curses Endwin)
     (fun _ => ret tt))%py.

Definition report (stdscr : window) (msg : string) : M terminal unit :=
  (try_except
     (curses (Clear stdscr) ;;
      curses (Addstr stdscr 0 0 msg) ;;
      curses (Refresh stdscr))
     (fun _ =>
        restore_terminal ;;
        print msg))%py.
End Curses.

End TelloState.

(** ** quick_calibrate.py and calibrate_tello.py

    Both scripts drive a [Tello] object, whose class is not part of these
    files, so the drone is a parameter: whether [Tello()] connects, whether
    the object has [get_battery], and what each method call returns or
    raises.  Everything the scripts do to the outside (output, prompts,
    commands to the drone, sleeps) is recorded in order. *)

Module Calibration.
Import Py.

(** What [get_battery] returns, as far as the scripts use it: its text in
    an f-string, and the result of [battery < 50] (which raises for a
    value that cannot be compared with an [int]). *)
Record battery : Type := Battery {
  battery_text : string;
  below_50 : outcome bool
}.

(** The drone as the scripts meet it. *)
Record tello : Type := Tello {
  (** [Tello()]: connects or raises. *)
  connect : outcome unit;
  (** [hasattr(drone, 'get_battery')]. *)
  has_get_battery : bool;
  (** [drone.get_battery()]. *)
  get_battery : outcome battery;
  (** [drone.send_command(cmd)]: the text of the response, or a raise. *)
  send_command : string -> outcome string
}.

(** What a script does to the outside. *)
Inductive action : Type :=
| Out (text : string) (ending : string)
| Prompt (text : string)
| NewTello
| GetBattery
| SendCommand (cmd : string)
| Sleep (seconds : Z).

Definition history : Type := list action.

Definition newline : string := String (Ascii.ascii_of_nat 10) EmptyString.
Definition carriage_return : string := String (Ascii.ascii_of_nat 13) EmptyString.

Definition act {A} (a : action) (o : outcome A) : M history A :=
  fun w => (o, World (self w ++ [a]) (trace w)).

(** [print(text)] and [print()]. *)
Definition println (text : string) : M history unit := act (Out text newline) (Return tt).
Definition print_empty : M history unit := println EmptyString.

(** [print(text, end='\r')]. *)
Definition print_cr (text : string) : M history unit :=
  act (Out text carriage_return) (Return tt).

(** [time.sleep(seconds)]. *)
Definition sleep (seconds : Z) : M history unit := act (Sleep seconds) (Return tt).

(** [s * n] on strings. *)
Definition str_repeat (s : string) (n : Z) : string :=
  String.concat EmptyString (repeat s (Z.to_nat n)).

(** [range(start, stop, -1)]. *)
Definition range_down (start stop : Z) : list Z :=
  map (fun k => start - Z.of_nat k) (seq 0 (Z.to_nat (start - stop))).

(** [f"{i:2d}"]: decimal, right-aligned in two columns. *)
Definition format_2d (i : Z) : string :=
  let digits := Np.string_of_Z i in
  if (String.length digits <? 2)%nat then (" " ++ digits)%string else digits.

(** [for x in xs: body x]. *)
Fixpoint for_each {S A} (xs : list A) (body : A -> M S unit) : M S unit :=
  match xs with
  | [] => ret tt
  | x :: rest => (body x ;; for_each rest body)%py
  end.

(** The end of a block that may execute [return v]: [Some v] when it did,
    [None] when control falls through to the next statement. *)
Definition or_continue {S A} (r : option A) (next : M S A) : M S A :=
  match r with
  | Some v => ret v
  | None => next
  end.

Section Drone.
Variable drone : tello.

(** The user's answer to [input(prompt)], or a raise (end of input). *)
Variable answer : string -> outcome string.

Definition new_tello : M history unit := act NewTello (connect drone).
Definition call_get_battery : M history battery := act GetBattery (get_battery drone).
Definition call_send_command (cmd : string) : M history string :=
  act (SendCommand cmd) (send_command drone cmd).
Definition input (prompt : string) : M history string :=
  act (Prompt prompt) (answer prompt).

(** quick_calibrate.py *)
Definition quick_calibrate : M history bool :=
  (println (str_repeat "=" 60) ;;
   println "TELLO QUICK CALIBRATION" ;;
   println (str_repeat "=" 60) ;;
   print_empty ;;
   println "Safety checklist:" ;;
   println "  ✓ Drone on flat, level surface" ;;
   println "  ✓ Area clear of obstacles" ;;
   println "  ✓ Battery > 50% charged" ;;
   println "  ✓ Connected to Tello WiFi (TELLO-XXXXX)" ;;
   print_empty ;;
   println "📡 Connecting to Tello drone..." ;;
   r <- try_except
          (new_tello ;;
           println "✅ Connected to Tello at 192.168.10.1:8889" ;;
           ret None)
          (fun e =>
             println ("❌ Failed to connect: " ++ str_exn e) ;;
             print_empty ;;
             println "Troubleshooting:" ;;
             println "  1. Is Tello powered on?" ;;
             println "  2. Are you connected to Tello WiFi?" ;;
             println "  3. Is the drone in range (within 10 meters)?" ;;
             ret (Some false)) ;;
   or_continue r
   (print_empty ;;
    println "🔋 Checking battery level..." ;;
    r <- try_except
           (if has_get_battery drone then
              b <- call_get_battery ;;
              println ("Battery level: " ++ battery_text b ++ "%") ;;
              low <- lift_outcome (below_50 b) ;;
              if (low : bool) then
                print_empty ;;
                println "❌ BATTERY TOO LOW FOR CALIBRATION" ;;
                println ("   Current: " ++ battery_text b ++ "%") ;;
                println "   Required: ≥50%" ;;
                print_empty ;;
                println "⚠️  Please charge the drone before calibrating" ;;
                println "   Reason: Low battery can affect IMU accuracy" ;;
                ret (Some false)
              else
                println "✅ Battery level sufficient for calibration" ;;
                ret None
            else
              println "⚠️  Battery level not available" ;;
              println "   (Please ensure battery is >50% before calibrating)" ;;
              ret None)
           (fun e =>
              println ("⚠️  Could not read battery: " ++ str_exn e) ;;
              println "   Proceeding anyway (use at your own risk)..." ;;
              ret None) ;;
    or_continue r
    (print_empty ;;
     println (str_repeat "-" 60) ;;
     println "STEP 1: Enter Command Mode" ;;
     println (str_repeat "-" 60) ;;
     r <- try_except
            (response <- call_send_command "command" ;;
             println "Sent: command" ;;
             println ("Response: " ++ response) ;;
             sleep 1 ;;
             ret None)
            (fun e =>
               println ("❌ Error: " ++ str_exn e) ;;
               ret (Some false)) ;;
     or_continue r
     (print_empty ;;
      println (str_repeat "-" 60) ;;
      println "STEP 2: IMU Calibration" ;;
      println (str_repeat "-" 60) ;;
      println "⏳ Calibrating IMU (keep drone still)..." ;;
      print_empty ;;
      for_each (range_down 15 0)
        (fun i =>
           let status := (str_repeat "█" (15 - i) ++ str_repeat "░" i)%string in
           print_cr ("  [" ++ status ++ "] " ++ format_2d i ++ " seconds") ;;
           sleep 1) ;;
      print_empty ;;
      println "  ✅ IMU calibration complete!" ;;
      print_empty ;;
      println (str_repeat "-" 60) ;;
      println "SUMMARY" ;;
      println (str_repeat "-" 60) ;;
      print_empty ;;
      println "Calibration steps completed:" ;;
      println "  1. ✅ Connected to drone" ;;
      println "  2. ✅ Entered command mode" ;;
      println "  3. ✅ IMU calibrated" ;;
      print_empty ;;
      println "Next steps:" ;;
      println "  1. Test with: forward 30 (move 30cm forward)" ;;
      println "  2. Observe if drone drifts" ;;
      println "  3. If still drifting:" ;;
      println "     - Check propeller balance" ;;
      println "     - Replace propellers if damaged" ;;
      println "     - Recalibrate on flatter surface" ;;
      print_empty ;;
      println (str_repeat "=" 60) ;;
      println "✅ CALIBRATION COMPLETE" ;;
      println (str_repeat "=" 60) ;;
      ret true))))%py.

(** calibrate_tello.py; the function returns [None]. *)
Definition calibrate_tello : M history unit :=
  (println (str_repeat "=" 60) ;;
   println "TELLO DRONE CALIBRATION SCRIPT" ;;
   println (str_repeat "=" 60) ;;
   print_empty ;;
   println "⚠️  IMPORTANT SAFETY PRECAUTIONS:" ;;
   println "  1. Place drone on FLAT, LEVEL surface" ;;
   println "  2. Keep area CLEAR of obstacles" ;;
   println "  3. Keep hands AWAY from propellers" ;;
   println "  4. Ensure battery is at least 50% charged" ;;
   print_empty ;;
   input "Press ENTER to continue..." ;;
   print_empty ;;
   println "📡 Connecting to Tello drone..." ;;
   r <- try_except
          (new_tello ;;
           println "✅ Connected to Tello at 192.168.10.1:8889" ;;
           ret None)
          (fun e =>
             println ("❌ Failed to connect: " ++ str_exn e) ;;
             println "   Make sure:" ;;
             println "   - Tello drone is powered on" ;;
             println "   - You're connected to Tello WiFi (TELLO-XXXXX)" ;;
             ret (Some tt)) ;;
   or_continue r
   (print_empty ;;
    println "🔋 Checking battery level..." ;;
    r <- try_except
           (if has_get_battery drone then
              b <- call_get_battery ;;
              println ("Battery level: " ++ battery_text b ++ "%") ;;
              low <- lift_outcome (below_50 b) ;;
              if (low : bool) then
                print_empty ;;
                println "❌ BATTERY TOO LOW FOR CALIBRATION" ;;
                println ("   Current: " ++ battery_text b ++ "%") ;;
                println "   Required: ≥50%" ;;
                print_empty ;;
                println "⚠️  Please charge the drone before calibrating" ;;
                println "   Reason: Low battery can affect IMU accuracy" ;;
                ret (Some tt)
              else
                println "✅ Battery level sufficient" ;;
                ret None
            else
              println "⚠️  Battery level not available in this Tello version" ;;
              println "   Please ensure battery is >50% manually" ;;
              ret None)
           (fun e =>
              println ("⚠️  Could not read battery: " ++ str_exn e) ;;
              println "   Proceeding with calibration anyway..." ;;
              ret None) ;;
    or_continue r
    (println "CALIBRATION STEPS:" ;;
     println (str_repeat "=" 60) ;;
     print_empty ;;
     println "STEP 1: IMU (Inertial Measurement Unit) Calibration" ;;
     println (str_repeat "-" 60) ;;
     println "The drone's IMU measures orientation and detects drift." ;;
     print_empty ;;
     println "🔧 Automatic calibration procedure:" ;;
     println "   1. Drone will enter command mode" ;;
     println "   2. Leave on flat surface for 15 seconds" ;;
     println "   3. IMU will auto-calibrate" ;;
     print_empty ;;
     println "Sending: command" ;;
     response <- call_send_command "command" ;;
     println ("Response: " ++ response) ;;
     sleep 1 ;;
     print_empty ;;
     println "⏳ IMU calibrating... Keep drone still for 15 seconds" ;;
     for_each (range_down 15 0)
       (fun i =>
          print_cr ("   " ++ Np.string_of_Z i ++ " seconds remaining...") ;;
          sleep 1) ;;
     println "   ✅ IMU calibration complete!" ;;
     print_empty ;;
     print_empty ;;
     println "STEP 2: Propeller Balance Check" ;;
     println (str_repeat "-" 60) ;;
     println "Checking if propellers are balanced and not damaged." ;;
     print_empty ;;
     println "Visual inspection needed:" ;;
     println "  ✓ All 4 propellers intact (no cracks)" ;;
     println "  ✓ All 4 propellers spin freely" ;;
     println "  ✓ No debris caught in propellers" ;;
     print_empty ;;
     print_empty ;;
     println "STEP 3: Test Flight (Optional)" ;;
     println (str_repeat "-" 60) ;;
     println "Options:" ;;
     println "  1. Takeoff and hover (tests calibration)" ;;
     println "  2. Skip test flight" ;;
     print_empty ;;
     choice <- input "Run test flight? (1 for yes, 2 for no): " ;;
     (if String.eqb choice "1" then
        print_empty ;;
        println "🚁 Starting test flight..." ;;
        println "   Drone will takeoff, hover 3 seconds, then land" ;;
        print_empty ;;
        try_except
          (println "Sending: takeoff" ;;
           response <- call_send_command "takeoff" ;;
           println ("Response: " ++ response) ;;
           sleep 1 ;;
           println "Hovering for 3 seconds..." ;;
           sleep 3 ;;
           println "Sending: land" ;;
           response <- call_send_command "land" ;;
           println ("Response: " ++ response) ;;
           sleep 2 ;;
           println "✅ Test flight complete!" ;;
           print_empty ;;
           println "Observations:" ;;
           println "  - Did drone drift forward/backward? (note direction)" ;;
           println "  - Did drone drift left/right? (note direction)" ;;
           println "  - Was landing smooth?")
          (fun e => println ("❌ Test flight error: " ++ str_exn e))
      else ret tt) ;;
     print_empty ;;
     println (str_repeat "=" 60) ;;
     println "CALIBRATION COMPLETE!" ;;
     println (str_repeat "=" 60) ;;
     print_empty ;;
     println "If drift persists:" ;;
     println "  1. Try calibration again" ;;
     println "  2. Check propeller balance" ;;
     println "  3. Ensure surface is completely flat" ;;
     println "  4. Replace propellers if damaged" ;;
     print_empty)))%py.

End Drone.

End Calibration.

(** ** Predicates used in the statements *)

(** A call that ended by returning (it did not raise). *)
Definition returns {A} (o : Py.outcome A) : Prop := exists a, o = Py.Return a.

(** Channel [k] of a row of pixels, left to right. *)
Definition channel (k : nat) (row : list (list Z)) : list Z :=
  map (fun px => nth k px 0) row.

(** A sequence whose values never decrease from left to right. *)
Definition nondecreasing (l : list Z) : Prop :=
  forall i j, (i <= j < List.length l)%nat -> nth i l 0 <= nth j l 0.

(** The same, checked on neighbours. *)
Fixpoint nondecreasingb (l : list Z) : bool :=
  match l with
  | [] => true
  | x :: rest =>
      match rest with
      | [] => true
      | y :: _ => (x <=? y) && nondecreasingb rest
      end
  end.

(** The [uint8] values that [create_dummy_frame] stores in channel 0 of
    every row of a frame of the given width. *)
Definition gradient_row (width : Z) : list Z :=
  match Np.linspace (Np.float_of_Z 0) (Np.float_of_Z 255) width with
  | Py.Return vals => map Np.to_uint8 vals
  | Py.Raise _ => []
  end.

(** An array of shape [(height, width, 3)] whose cells agree with its
    shape: [height] rows of [width] pixels of 3 channels. *)
Definition well_shaped (height width : Z) (f : Np.ndarray) : Prop :=
  Np.shape f = (height, width, 3) /\
  List.length (Np.data f) = Z.to_nat height /\
  Forall (fun row =>
            List.length row = Z.to_nat width /\
            Forall (fun px => List.length px = 3%nat) row)
         (Np.data f).

(** Dimensions that numpy accepts for the frame: neither is negative, and
    neither the byte count of the [uint8] array of shape
    (height, width, 3) nor that of a float64 vector of [width] samples
    leaves the index type. *)
Definition numpy_accepts (width height : Z) : Prop :=
  0 <= width /\ 0 <= height /\
  width * 8 <= Np.intp_max /\
  height * 3 <= Np.intp_max /\
  height * width * 3 <= Np.intp_max.

(** A decode step that raises on every buffer. *)
Definition always_raises (step : Py.bytes -> Py.outcome (list DecodedFrame)) : Prop :=
  forall buffer_bytes, exists e, step buffer_bytes = Py.Raise e.

(** The state after a run of calls. *)
Definition after_calls {S A B} (f : B -> Py.M S A) (args : list B) (w : Py.world S)
  : Py.world S :=
  snd (Py.run_calls f args w).

(** The outcomes of a run of calls. *)
Definition outcomes_of {S A B} (f : B -> Py.M S A) (args : list B) (w : Py.world S)
  : list (Py.outcome A) :=
  fst (Py.run_calls f args w).

(** A curses call that was attempted and succeeded. *)
Definition succeeded (a : TelloState.curses_call * bool) : Prop := snd a = true.

(** The commands sent to the drone in a history, in order. *)
Definition commands_sent (h : Calibration.history) : list string :=
  flat_map (fun a => match a with
                     | Calibration.SendCommand cmd => [cmd]
                     | _ => []
                     end) h.

(** The total time slept in a history, in seconds. *)
Definition seconds_slept (h : Calibration.history) : Z :=
  fold_right (fun a acc => match a with
                           | Calibration.Sleep s => s + acc
                           | _ => acc
                           end) 0 h.

(** The texts written to standard output in a history, in order. *)
Definition printed (h : Calibration.history) : list string :=
  flat_map (fun a => match a with
                     | Calibration.Out text _ => [text]
                     | _ => []
                     end) h.

(** The prompts shown to the user in a history, in order. *)
Definition prompts_shown (h : Calibration.history) : list string :=
  flat_map (fun a => match a with
                     | Calibration.Prompt text => [text]
                     | _ => []
                     end) h.

(** The drone has [get_battery], the call returns, and the value compares
    as below 50. *)
Definition reports_low_battery (d : Calibration.tello) : Prop :=
  Calibration.has_get_battery d = true /\
  exists b,
    Calibration.get_battery d = Py.Return b /\
    Calibration.below_50 b = Py.Return true.

(** The start of a script: nothing done yet. *)
Definition script_start : Py.world Calibration.history := Py.World [] [].

(** ** OpenCVH264Decoder.decode, step by step *)

Section DecodeFacts.
Import Py OpenCVH264Decoder.
Variable decode_step : bytes -> outcome (list DecodedFrame).

Lemma decode_with_nil (w : world t) :
  decode_with decode_step [] w = (Return [], w).
Proof. reflexivity. Qed.

(** What one call on a non-empty packet does, by the result of the
    decode step on the extended buffer. *)
Lemma decode_with_cons (b : byte) (p : bytes) (w : world t) :
  decode_with decode_step (b :: p) w =
    let d := extend_frame_buffer (b :: p) (self w) in
    match decode_step (frame_buffer d) with
    | Return (f :: fs) =>
        (Return (f :: fs), World (set_frame_buffer [] d) (trace w))
    | Return [] => (Return [], World d (trace w))
    | Raise e =>
        (Return [],
         World (if len (frame_buffer d) >? 1024 * 1024
                then set_frame_buffer [] d else d)
               (trace w ++ [Print ("Decode error: " ++ str_exn e)]))
    end.
Proof.
  unfold decode_with, try_except, bind, modify_self, get_self, lift_outcome, ret, print.
  cbn [truthy negb self trace fst snd].
  destruct (decode_step (frame_buffer (extend_frame_buffer (b :: p) (self w))))
    as [[|f fs]|e]; cbn [truthy self trace]; try reflexivity.
  destruct (len _ >? 1024 * 1024); reflexivity.
Qed.

Lemma decode_with_returns (p : bytes) (w : world t) :
  returns (fst (decode_with decode_step p w)).
Proof.
  destruct p as [|b p]; [eexists; reflexivity|].
  rewrite decode_with_cons. cbv zeta.
  destruct (decode_step _) as [[|f fs]|e]; eexists; reflexivity.
Qed.

Lemma run_decode_with_returns (ps : list bytes) :
  forall w, Forall returns (fst (run_calls (decode_with decode_step) ps w)).
Proof.
  induction ps as [|p ps IH]; intros w; cbn [run_calls].
  - constructor.
  - pose proof (decode_with_returns p w) as Hp.
    destruct (decode_with decode_step p w) as [o w1].
    specialize (IH w1).
    destruct (run_calls (decode_with decode_step) ps w1) as [os w2].
    constructor; assumption.
Qed.

(** One call that extracts no frame, on a buffer that stays within the
    limit, appends the packet and nothing else. *)
Lemma decode_with_no_frame_appends (p : bytes) (w w1 : world t) :
  decode_with decode_step p w = (Return [], w1) ->
  len (frame_buffer (self w) ++ p) <= 1024 * 1024 ->
  frame_buffer (self w1) = frame_buffer (self w) ++ p.
Proof.
  destruct p as [|b p].
  - rewrite decode_with_nil. intros [= <-] _. now rewrite app_nil_r.
  - rewrite decode_with_cons. cbv zeta.
    unfold extend_frame_buffer, set_frame_buffer. cbn [frame_buffer].
    intros H Hlen.
    destruct (decode_step _) as [[|f fs]|e].
    + now injection H as <-.
    + discriminate H.
    + destruct (len _ >? 1024 * 1024) eqn:E; [lia|].
      now injection H as <-.
Qed.
End DecodeFacts.

(** With the decode step of the class, a call returns no frame, appends the
    packet to the buffer and does nothing else. *)
Lemma decode_spec (p : Py.bytes) (w : Py.world OpenCVH264Decoder.t) :
  OpenCVH264Decoder.decode p w =
    (Py.Return [],
     Py.World (OpenCVH264Decoder.Build
                 (OpenCVH264Decoder.frame_buffer (Py.self w) ++ p)
                 (OpenCVH264Decoder.last_frames (Py.self w)))
              (Py.trace w)).
Proof.
  unfold OpenCVH264Decoder.decode.
  destruct p as [|b p].
  - rewrite decode_with_nil. rewrite app_nil_r. now destruct w as [[fb lf] tr].
  - now rewrite decode_with_cons.
Qed.

(** Over any run of calls the buffer is the initial buffer followed by all
    the packets: it is never reset. *)
Lemma run_decode_spec (ps : list Py.bytes) :
  forall w : Py.world OpenCVH264Decoder.t,
    Py.run_calls OpenCVH264Decoder.decode ps w =
      (repeat (Py.Return []) (List.length ps),
       Py.World (OpenCVH264Decoder.Build
                   (OpenCVH264Decoder.frame_buffer (Py.self w) ++ List.concat ps)
                   (OpenCVH264Decoder.last_frames (Py.self w)))
                (Py.trace w)).
Proof.
  induction ps as [|p ps IH]; intros w; cbn [Py.run_calls List.concat List.length repeat].
  - rewrite app_nil_r. now destruct w as [[fb lf] tr].
  - rewrite decode_spec, IH. cbn. now rewrite <- app_assoc.
Qed.

Lemma facade_decode_spec (p : Py.bytes) (w : Py.world H264Decoder.t) :
  H264Decoder.decode p w =
    (Py.Return [],
     if H264Decoder.use_fallback (Py.self w) then w
     else Py.World (H264Decoder.Build
                      (OpenCVH264Decoder.Build
                         (OpenCVH264Decoder.frame_buffer
                            (H264Decoder.decoder (Py.self w)) ++ p)
                         (OpenCVH264Decoder.last_frames
                            (H264Decoder.decoder (Py.self w))))
                      false)
                   (Py.trace w)).
Proof.
  destruct w as [[d fb] tr].
  unfold H264Decoder.decode, Py.bind, Py.get_self, Py.on_attr, Py.ret.
  cbn [Py.self Py.trace H264Decoder.use_fallback H264Decoder.decoder].
  destruct fb; cbn [negb]; [reflexivity|].
  now rewrite decode_spec.
Qed.

Lemma run_facade_returns (ps : list Py.bytes) :
  forall w, Forall returns (fst (Py.run_calls H264Decoder.decode ps w)).
Proof.
  induction ps as [|p ps IH]; intros w; cbn [Py.run_calls].
  - constructor.
  - rewrite facade_decode_spec.
    match goal with |- context [Py.run_calls _ ps ?w1] => specialize (IH w1);
      destruct (Py.run_calls H264Decoder.decode ps w1) as [os w2] end.
    constructor; [eexists; reflexivity | assumption].
Qed.

(** ** The decoders' contracts *)

(** C1: whatever packets are fed, in whatever state, no call of [decode]
    raises: each call returns a list of frames.  This holds for the backend
    [OpenCVH264Decoder.decode] (for its own decode step and for any decode
    step it could call, raising or not) and for the facade
    [H264Decoder.decode]. *)
Theorem decode_never_raises (ps : list Py.bytes) :
  (forall step w,
      Forall returns
        (fst (Py.run_calls (OpenCVH264Decoder.decode_with step) ps w))) /\
  (forall w, Forall returns (fst (Py.run_calls OpenCVH264Decoder.decode ps w))) /\
  (forall w, Forall returns (fst (Py.run_calls H264Decoder.decode ps w))).
Proof.
  split; [|split].
  - intros step w. apply run_decode_with_returns.
  - intros w. apply run_decode_with_returns.
  - intros w. apply run_facade_returns.
Qed.

(** C2: when [use_fallback] is true, [H264Decoder.decode] returns the empty
    list for every input and every state of the object, and leaves the
    object (the inner decoder's buffer included) and the effect trace
    exactly as they were. *)
Theorem facade_fallback_is_noop (p : Py.bytes) (w : Py.world H264Decoder.t) :
  H264Decoder.use_fallback (Py.self w) = true ->
  H264Decoder.decode p w = (Py.Return [], w).
Proof.
  intros H. rewrite facade_decode_spec. now rewrite H.
Qed.

Lemma facade_fallback_is_noop_witness :
  H264Decoder.decode ["007"%byte]
    (Py.World (H264Decoder.Build (OpenCVH264Decoder.Build ["001"%byte] []) true) [])
  = (Py.Return [],
     Py.World (H264Decoder.Build (OpenCVH264Decoder.Build ["001"%byte] []) true) []).
Proof.
  apply (facade_fallback_is_noop ["007"%byte]
           (Py.World (H264Decoder.Build (OpenCVH264Decoder.Build ["001"%byte] []) true) [])).
  reflexivity.
Defined.

(** C3 (the code departs from it): a fresh [OpenCVH264Decoder] fed one
    packet of 1,048,577 bytes keeps all of them: the buffer is longer than
    the 1,048,576-byte limit after the call, and the next call appends to
    it instead of starting from an empty buffer. *)
Theorem decode_buffer_exceeds_limit :
  let big := repeat "000"%byte (Z.to_nat 1048577) in
  let w1 := snd (OpenCVH264Decoder.decode big
                   (Py.World OpenCVH264Decoder.__init__ [])) in
  let w2 := snd (OpenCVH264Decoder.decode ["001"%byte] w1) in
  fst (OpenCVH264Decoder.decode big (Py.World OpenCVH264Decoder.__init__ []))
    = Py.Return [] /\
  Py.len (OpenCVH264Decoder.frame_buffer (Py.self w1)) = 1048577 /\
  1024 * 1024 < Py.len (OpenCVH264Decoder.frame_buffer (Py.self w1)) /\
  OpenCVH264Decoder.frame_buffer (Py.self w2) = big ++ ["001"%byte].
Proof.
  intros big w1 w2. subst w2 w1.
  rewrite !decode_spec. cbn [fst snd Py.self OpenCVH264Decoder.frame_buffer
                              OpenCVH264Decoder.__init__ app].
  assert (Hlen : Py.len big = 1048577).
  { unfold Py.len, big. rewrite repeat_length. now rewrite Z2Nat.id. }
  split; [reflexivity|].
  split; [exact Hlen|].
  split; [rewrite Hlen; reflexivity | reflexivity].
Qed.

(** C4: the decode step returns the empty list for every buffer, and so
    [OpenCVH264Decoder.decode] returns the empty list for every packet, in
    every state. *)
Theorem decode_step_is_a_stub :
  (forall buffer_bytes,
      OpenCVH264Decoder._decode_h264_buffer buffer_bytes = Py.Return []) /\
  (forall p w, fst (OpenCVH264Decoder.decode p w) = Py.Return []).
Proof.
  split.
  - reflexivity.
  - intros p w. now rewrite decode_spec.
Qed.



(** C6: on each of the three decoders, [decode] of the empty byte string
    returns the empty list and leaves the object, its buffer and the effect
    trace unchanged. *)
Theorem decode_empty_packet_is_noop :
  (forall w, OpenCVH264Decoder.decode [] w = (Py.Return [], w)) /\
  (forall w, H264Decoder.decode [] w = (Py.Return [], w)) /\
  (forall w, FFmpegH264Decoder.decode [] w = (Py.Return [], w)).
Proof.
  split; [|split].
  - reflexivity.
  - intros [[d [|]] tr]; reflexivity.
  - intros [[s [|]] tr]; reflexivity.
Qed.

(** C9: [H264Decoder.__init__] sets [use_fallback] to true, and on a
    freshly constructed facade every run of [decode] calls returns the
    empty list each time and leaves the object, with the inner decoder's
    empty buffer, and the effect trace unchanged. *)
Theorem fresh_facade_never_decodes (ps : list Py.bytes) (tr : list Py.event) :
  H264Decoder.use_fallback H264Decoder.__init__ = true /\
  Py.run_calls H264Decoder.decode ps (Py.World H264Decoder.__init__ tr)
    = (repeat (Py.Return []) (List.length ps),
       Py.World H264Decoder.__init__ tr).
Proof.
  split; [reflexivity|].
  induction ps as [|p ps IH]; cbn [Py.run_calls List.length repeat].
  - reflexivity.
  - rewrite facade_decode_spec. cbn [Py.self H264Decoder.__init__ H264Decoder.use_fallback].
    now rewrite IH.
Qed.

(** C10: [FFmpegH264Decoder.decode] returns the empty list for every
    input and every state of the object (whether or not the import of
    [subprocess] succeeded), and changes neither the object nor the effect
    trace: it starts no process, prints nothing and accumulates nothing. *)
Theorem ffmpeg_decode_is_constant
    (p : Py.bytes) (w : Py.world FFmpegH264Decoder.t) :
  FFmpegH264Decoder.decode p w = (Py.Return [], w).
Proof.
  destruct w as [[s [|]] tr]; reflexivity.
Qed.

(** ** create_dummy_frame *)

Section FrameFacts.
Import Py Np.

Lemma set_last_length {A} (v : A) (y : list A) :
  y <> [] -> List.length (set_last v y) = List.length y.
Proof.
  intros Hy. unfold set_last.
  rewrite (app_removelast_last v Hy) at 2.
  now rewrite !length_app.
Qed.

Lemma arange_returns (num : Z) :
  0 <= num -> num * 8 <= intp_max ->
  arange num = Return (map (fun i => float_of_Z (Z.of_nat i)) (seq 0 (Z.to_nat num))).
Proof.
  intros Hnum Hfit. unfold arange, array_nbytes. cbn [fold_left]. unfold grow.
  rewrite Z.max_r by lia.
  destruct (num =? 0); [reflexivity|].
  destruct (num <? 0) eqn:E; [apply Z.ltb_lt in E; lia|].
  destruct (8 * num >? intp_max) eqn:E1; [|reflexivity].
  rewrite Z.gtb_ltb in E1. apply Z.ltb_lt in E1. lia.
Qed.

(** For a non-negative count whose samples fit the index type,
    [linspace] returns that many samples. *)
Lemma linspace_returns (start stop : float) (num : Z) :
  0 <= num -> num * 8 <= intp_max ->
  exists vals,
    linspace start stop num = Return vals /\ List.length vals = Z.to_nat num.
Proof.
  intros Hnum Hfit. unfold linspace.
  destruct (num <? 0) eqn:E; [apply Z.ltb_lt in E; lia|].
  cbv zeta. rewrite arange_returns by assumption.
  eexists; split; [reflexivity|].
  match goal with
  | |- List.length (if _ then set_last _ ?y else _) = _ =>
      assert (Hy : List.length y = Z.to_nat num)
  end.
  { destruct (0 <? num - 1); [destruct (_ =? 0)%float|];
      now rewrite !length_map, length_seq. }
  destruct (1 <? num) eqn:E1; [|exact Hy].
  rewrite set_last_length; [exact Hy|].
  apply Z.ltb_lt in E1. intros Hnil. rewrite Hnil in Hy. cbn in Hy. lia.
Qed.

(** Writing channel 0 of a row of zero pixels. *)
Lemma store_row_zeros (vals : list float) :
  store_row 0 vals (repeat [0; 0; 0] (List.length vals))
  = map (fun v => [v; 0; 0]) (map to_uint8 vals).
Proof.
  unfold store_row.
  induction vals as [|v vals IH]; cbn [List.length repeat combine map fst snd set_nth].
  - reflexivity.
  - f_equal. exact IH.
Qed.

(** [np.zeros] returns for the dimensions that numpy accepts. *)
Lemma zeros_returns (width height : Z) :
  numpy_accepts width height ->
  zeros (height, width, 3)
  = Return (NdArray (height, width, 3)
              (repeat (repeat (repeat 0 (Z.to_nat 3)) (Z.to_nat width))
                      (Z.to_nat height))).
Proof.
  intros (Hw & Hh & Hw8 & Hh3 & Hhw). unfold zeros.
  assert (Hmax : intp_max = 9223372036854775807) by reflexivity.
  replace (fits_intp height && fits_intp width && fits_intp 3) with true.
  2:{ symmetry. unfold fits_intp, intp_min, intp_max in *.
      rewrite !andb_true_iff, !Z.leb_le. lia. }
  cbn [negb]. unfold array_nbytes. cbn [fold_left]. unfold grow at 3.
  destruct (Z.eqb_spec height 0) as [Eh|Eh];
    [|replace (height <? 0) with false by (symmetry; apply Z.ltb_ge; lia);
      replace (1 * height >? intp_max) with false
        by (symmetry; rewrite Z.gtb_ltb; apply Z.ltb_ge; lia)];
    unfold grow at 2;
    (destruct (Z.eqb_spec width 0) as [Ew|Ew];
     [|replace (width <? 0) with false by (symmetry; apply Z.ltb_ge; lia);
       match goal with
       | |- context [?n * width >? intp_max] =>
           replace (n * width >? intp_max) with false
             by (symmetry; rewrite Z.gtb_ltb; apply Z.ltb_ge; nia)
       end]);
    unfold grow; cbn [Z.eqb Z.ltb Z.compare];
    match goal with
    | |- context [?n * 3 >? intp_max] =>
        replace (n * 3 >? intp_max) with false
          by (symmetry; rewrite Z.gtb_ltb; apply Z.ltb_ge; nia)
    end; reflexivity.
Qed.

(** The frame that [create_dummy_frame] builds for the dimensions that
    numpy accepts: [height] copies of one row, whose pixels carry the
    gradient in channel 0 and zero in channels 1 and 2. *)
Lemma create_dummy_frame_spec (width height : Z) :
  numpy_accepts width height ->
  OpenCVH264Decoder.create_dummy_frame width height
  = Return (NdArray (height, width, 3)
              (repeat (map (fun v => [v; 0; 0]) (gradient_row width))
                      (Z.to_nat height))).
Proof.
  intros Hok. pose proof Hok as (Hw & Hh & Hw8 & _).
  unfold OpenCVH264Decoder.create_dummy_frame, gradient_row.
  rewrite (zeros_returns width height Hok).
  cbn [outcome_bind].
  destruct (linspace_returns (float_of_Z 0) (float_of_Z 255) width Hw Hw8)
    as (vals & -> & Hlen).
  cbn [outcome_bind]. unfold setitem_channel. cbn [shape data].
  replace (len vals =? width) with true
    by (symmetry; apply Z.eqb_eq; unfold len; lia).
  rewrite map_repeat, <- Hlen.
  change (Z.to_nat 3) with 3%nat. cbn [repeat].
  now rewrite store_row_zeros.
Qed.

Lemma channel0_of_row (g : list Z) :
  channel 0 (map (fun v => [v; 0; 0]) g) = g.
Proof.
  unfold channel. rewrite map_map. cbn [nth]. apply map_id.
Qed.

Lemma channel1_of_row (g : list Z) :
  Forall (eq 0) (channel 1 (map (fun v => [v; 0; 0]) g)).
Proof.
  unfold channel. rewrite map_map. cbn [nth].
  apply Forall_forall. intros x Hx. apply in_map_iff in Hx.
  now destruct Hx as (v & <- & _).
Qed.

Lemma channel2_of_row (g : list Z) :
  Forall (eq 0) (channel 2 (map (fun v => [v; 0; 0]) g)).
Proof.
  unfold channel. rewrite map_map. cbn [nth].
  apply Forall_forall. intros x Hx. apply in_map_iff in Hx.
  now destruct Hx as (v & <- & _).
Qed.

Lemma pixels_of_row (g : list Z) :
  Forall (fun px => List.length px = 3%nat) (map (fun v => [v; 0; 0]) g).
Proof.
  apply Forall_forall. intros px Hpx. apply in_map_iff in Hpx.
  now destruct Hpx as (v & <- & _).
Qed.

Lemma Forall_repeat_intro {A} (P : A -> Prop) (x : A) (n : nat) :
  P x -> Forall P (repeat x n).
Proof.
  intros Hx. apply Forall_forall. intros y Hy.
  now rewrite (repeat_spec n x y Hy).
Qed.

Lemma gradient_row_length (width : Z) :
  0 <= width -> width * 8 <= intp_max ->
  List.length (gradient_row width) = Z.to_nat width.
Proof.
  intros Hw Hw8. unfold gradient_row.
  destruct (linspace_returns (float_of_Z 0) (float_of_Z 255) width Hw Hw8)
    as (vals & -> & Hlen).
  now rewrite length_map.
Qed.
End FrameFacts.

(** The neighbour check is sound for [nondecreasing]. *)
Lemma nondecreasingb_head (l : list Z) :
  forall x, nondecreasingb (x :: l) = true ->
  forall j, (j < List.length l)%nat -> x <= nth j l 0.
Proof.
  induction l as [|y l IH]; intros x H j Hj; [cbn in Hj; lia|].
  cbn [nondecreasingb] in H. apply andb_prop in H. destruct H as [Hxy Hrest].
  apply Z.leb_le in Hxy.
  destruct j as [|j]; cbn [nth]; [exact Hxy|].
  cbn [List.length] in Hj.
  specialize (IH y Hrest j ltac:(lia)). lia.
Qed.

Lemma nondecreasingb_sound (l : list Z) :
  nondecreasingb l = true -> nondecreasing l.
Proof.
  induction l as [|x l IH]; intros H i j Hij; [cbn in Hij; lia|].
  cbn [List.length] in Hij.
  destruct i as [|i]; destruct j as [|j]; cbn [nth]; try lia.
  - apply nondecreasingb_head; [exact H | lia].
  - apply IH; [|lia].
    destruct l as [|y l]; [reflexivity|].
    cbn [nondecreasingb] in H. apply andb_prop in H. exact (proj2 H).
Qed.

Lemma gradient_frame_well_shaped (width height : Z) :
  0 <= width -> width * 8 <= Np.intp_max ->
  well_shaped height width
    (Np.NdArray (height, width, 3)
       (repeat (map (fun v => [v; 0; 0]) (gradient_row width)) (Z.to_nat height))).
Proof.
  intros Hw Hw8. unfold well_shaped. cbn [Np.shape Np.data].
  split; [reflexivity|]. split; [apply repeat_length|].
  apply Forall_repeat_intro. split.
  - rewrite length_map. now apply gradient_row_length.
  - apply pixels_of_row.
Qed.

Lemma create_dummy_frame_well_shaped (width height : Z) :
  numpy_accepts width height ->
  exists f,
    OpenCVH264Decoder.create_dummy_frame width height = Py.Return f /\
    well_shaped height width f.
Proof.
  intros Hok. eexists. split; [apply create_dummy_frame_spec; assumption|].
  destruct Hok as (Hw & _ & Hw8 & _). now apply gradient_frame_well_shaped.
Qed.

Lemma numpy_accepts_960_720 : numpy_accepts 960 720.
Proof. unfold numpy_accepts, Np.intp_max. lia. Qed.







(** ** More on the decoders: runs of calls *)

Lemma after_calls_cons {S A B} (f : B -> Py.M S A) (a : B) (rest : list B)
    (w : Py.world S) :
  after_calls f (a :: rest) w = after_calls f rest (snd (f a w)).
Proof.
  unfold after_calls. cbn [Py.run_calls].
  destruct (f a w) as [o w1]. cbn [snd].
  now destruct (Py.run_calls f rest w1).
Qed.

Lemma outcomes_of_cons {S A B} (f : B -> Py.M S A) (a : B) (rest : list B)
    (w : Py.world S) :
  outcomes_of f (a :: rest) w = fst (f a w) :: outcomes_of f rest (snd (f a w)).
Proof.
  unfold outcomes_of. cbn [Py.run_calls].
  destruct (f a w) as [o w1]. cbn [fst snd].
  now destruct (Py.run_calls f rest w1).
Qed.

Lemma decode_error_prefix (s : string) :
  String.prefix "Decode error: " ("Decode error: " ++ s) = true.
Proof. apply String.prefix_correct. now destruct s. Qed.

Section RunFacts.
Import Py OpenCVH264Decoder.
Variable step : bytes -> outcome (list DecodedFrame).

(** What any single call leaves behind, whatever the decode step does. *)
Lemma decode_with_summary (p : bytes) (w : world t) :
  exists fs w',
    decode_with step p w = (Return fs, w') /\
    last_frames (self w') = last_frames (self w) /\
    (frame_buffer (self w') = frame_buffer (self w) ++ p \/
     frame_buffer (self w') = []) /\
    exists lines,
      trace w' = trace w ++ map Print lines /\
      (List.length lines <= 1)%nat /\
      Forall (fun l => String.prefix "Decode error: " l = true) lines.
Proof.
  destruct p as [|b p].
  - exists [], w. rewrite decode_with_nil, app_nil_r.
    repeat (split; [try reflexivity; now left|]).
    exists []. cbn [map List.length]. rewrite app_nil_r.
    repeat split; [lia | constructor].
  - rewrite decode_with_cons. cbv zeta.
    unfold extend_frame_buffer, set_frame_buffer. cbn [frame_buffer last_frames].
    destruct (step _) as [[|f fs]|e].
    + eexists _, _. split; [reflexivity|]. cbn [self trace frame_buffer last_frames].
      split; [reflexivity|]. split; [now left|].
      exists []. cbn [map List.length]. rewrite app_nil_r.
      repeat split; [lia | constructor].
    + eexists _, _. split; [reflexivity|]. cbn [self trace frame_buffer last_frames].
      split; [reflexivity|]. split; [now right|].
      exists []. cbn [map List.length]. rewrite app_nil_r.
      repeat split; [lia | constructor].
    + eexists _, _. split; [reflexivity|]. cbn [self trace].
      split; [now destruct (len _ >? _)|].
      split; [destruct (len _ >? _); cbn [frame_buffer]; [now right | now left]|].
      exists ["Decode error: " ++ str_exn e]%string. cbn [map List.length].
      repeat split; [lia|].
      constructor; [apply decode_error_prefix | constructor].
Qed.

(** One call with a raising decode step leaves a buffer within the limit
    when it started within it. *)
Lemma decode_with_raising_bounded (p : bytes) (w : world t) :
  always_raises step ->
  len (frame_buffer (self w)) <= 1024 * 1024 ->
  len (frame_buffer (self (snd (decode_with step p w)))) <= 1024 * 1024.
Proof.
  intros Hstep Hlen. destruct p as [|b p]; [exact Hlen|].
  rewrite decode_with_cons. cbv zeta.
  destruct (Hstep (frame_buffer (extend_frame_buffer (b :: p) (self w)))) as [e ->].
  cbn [snd self].
  destruct (len _ >? 1024 * 1024) eqn:E.
  - cbn. lia.
  - rewrite Z.gtb_ltb in E. apply Z.ltb_ge in E. exact E.
Qed.
End RunFacts.

Lemma run_facade_spec (ps : list Py.bytes) :
  forall w : Py.world H264Decoder.t,
    Py.run_calls H264Decoder.decode ps w =
      (repeat (Py.Return []) (List.length ps),
       if H264Decoder.use_fallback (Py.self w) then w
       else Py.World (H264Decoder.Build
                        (OpenCVH264Decoder.Build
                           (OpenCVH264Decoder.frame_buffer
                              (H264Decoder.decoder (Py.self w)) ++ List.concat ps)
                           (OpenCVH264Decoder.last_frames
                              (H264Decoder.decoder (Py.self w))))
                        false)
                     (Py.trace w)).
Proof.
  induction ps as [|p ps IH]; intros [[d fb] tr];
    cbn [Py.run_calls List.concat List.length repeat Py.self Py.trace
         H264Decoder.use_fallback H264Decoder.decoder].
  - destruct fb; [reflexivity|]. rewrite app_nil_r. now destruct d.
  - rewrite facade_decode_spec.
    cbn [Py.self Py.trace H264Decoder.use_fallback H264Decoder.decoder].
    destruct fb; rewrite IH;
      cbn [Py.self Py.trace H264Decoder.use_fallback H264Decoder.decoder
           OpenCVH264Decoder.frame_buffer OpenCVH264Decoder.last_frames];
      [reflexivity|].
    now rewrite <- app_assoc.
Qed.

(** X1: over any run of calls of [OpenCVH264Decoder.decode], from any
    state, every call returns the empty list and the buffer ends as the
    initial buffer followed by all the packets in call order; [last_frames]
    and the effect trace are unchanged. *)
Theorem decode_run_accumulates
    (ps : list Py.bytes) (w : Py.world OpenCVH264Decoder.t) :
  outcomes_of OpenCVH264Decoder.decode ps w
    = repeat (Py.Return []) (List.length ps) /\
  after_calls OpenCVH264Decoder.decode ps w
    = Py.World (OpenCVH264Decoder.Build
                  (OpenCVH264Decoder.frame_buffer (Py.self w) ++ List.concat ps)
                  (OpenCVH264Decoder.last_frames (Py.self w)))
               (Py.trace w).
Proof.
  unfold outcomes_of, after_calls. rewrite run_decode_spec. split; reflexivity.
Qed.

(** X2: when the decode step extracts frames from the buffer extended with
    a non-empty packet, [decode] returns exactly those frames and leaves
    the buffer empty; nothing is printed. *)
Theorem decode_success_clears_buffer
    (step : Py.bytes -> Py.outcome (list DecodedFrame))
    (p : Py.bytes) (w : Py.world OpenCVH264Decoder.t)
    (f : DecodedFrame) (fs : list DecodedFrame) :
  p <> [] ->
  step (OpenCVH264Decoder.frame_buffer (Py.self w) ++ p) = Py.Return (f :: fs) ->
  OpenCVH264Decoder.decode_with step p w
    = (Py.Return (f :: fs),
       Py.World (OpenCVH264Decoder.Build []
                   (OpenCVH264Decoder.last_frames (Py.self w)))
                (Py.trace w)).
Proof.
  intros Hp Hstep. destruct p as [|b p]; [contradiction|].
  rewrite decode_with_cons. cbv zeta.
  unfold OpenCVH264Decoder.extend_frame_buffer, OpenCVH264Decoder.set_frame_buffer.
  cbn [OpenCVH264Decoder.frame_buffer OpenCVH264Decoder.last_frames].
  now rewrite Hstep.
Qed.

Lemma decode_success_clears_buffer_witness :
  OpenCVH264Decoder.decode_with
    (fun _ => Py.Return [(Np.NdArray (0, 0, 3) [], 0, 0, 0)])
    ["002"%byte]
    (Py.World (OpenCVH264Decoder.Build ["001"%byte] []) [])
  = (Py.Return [(Np.NdArray (0, 0, 3) [], 0, 0, 0)],
     Py.World (OpenCVH264Decoder.Build [] []) []).
Proof.
  apply (decode_success_clears_buffer
           (fun _ => Py.Return [(Np.NdArray (0, 0, 3) [], 0, 0, 0)])
           ["002"%byte]
           (Py.World (OpenCVH264Decoder.Build ["001"%byte] []) [])).
  - discriminate.
  - reflexivity.
Defined.

(** X3: when the decode step raises on the buffer extended with a
    non-empty packet, [decode] still returns the empty list, prints the one
    line "Decode error: " followed by the exception's message, and empties
    the buffer exactly when its length exceeds 1024 * 1024 bytes; a buffer
    within the limit is kept with the packet appended. *)
Theorem decode_step_failure_contained
    (step : Py.bytes -> Py.outcome (list DecodedFrame))
    (p : Py.bytes) (w : Py.world OpenCVH264Decoder.t) (e : Py.exn) :
  p <> [] ->
  step (OpenCVH264Decoder.frame_buffer (Py.self w) ++ p) = Py.Raise e ->
  OpenCVH264Decoder.decode_with step p w
    = (Py.Return [],
       Py.World (OpenCVH264Decoder.Build
                   (if Py.len (OpenCVH264Decoder.frame_buffer (Py.self w) ++ p)
                       >? 1024 * 1024
                    then []
                    else OpenCVH264Decoder.frame_buffer (Py.self w) ++ p)
                   (OpenCVH264Decoder.last_frames (Py.self w)))
                (Py.trace w ++ [Py.Print ("Decode error: " ++ Py.str_exn e)])).
Proof.
  intros Hp Hstep. destruct p as [|b p]; [contradiction|].
  rewrite decode_with_cons. cbv zeta.
  unfold OpenCVH264Decoder.extend_frame_buffer, OpenCVH264Decoder.set_frame_buffer.
  cbn [OpenCVH264Decoder.frame_buffer OpenCVH264Decoder.last_frames].
  rewrite Hstep. now destruct (Py.len _ >? 1024 * 1024).
Qed.

Lemma decode_step_failure_contained_witness :
  OpenCVH264Decoder.decode_with
    (fun _ => Py.Raise (Py.RuntimeError "no codec"))
    ["002"%byte]
    (Py.World (OpenCVH264Decoder.Build ["001"%byte] []) [])
  = (Py.Return [],
     Py.World (OpenCVH264Decoder.Build
                 (if Py.len (["001"%byte] ++ ["002"%byte]) >? 1024 * 1024
                  then [] else ["001"%byte] ++ ["002"%byte])
                 [])
              ([] ++ [Py.Print ("Decode error: " ++ Py.str_exn (Py.RuntimeError "no codec"))])).
Proof.
  apply (decode_step_failure_contained
           (fun _ => Py.Raise (Py.RuntimeError "no codec"))
           ["002"%byte]
           (Py.World (OpenCVH264Decoder.Build ["001"%byte] []) [])
           (Py.RuntimeError "no codec")).
  - discriminate.
  - reflexivity.
Defined.

(** X4: with a decode step that raises on every buffer, a buffer that
    starts within the limit of 1024 * 1024 bytes is within the limit after
    every run of calls. *)
Theorem decode_raising_step_keeps_limit
    (step : Py.bytes -> Py.outcome (list DecodedFrame))
    (ps : list Py.bytes) (w : Py.world OpenCVH264Decoder.t) :
  always_raises step ->
  Py.len (OpenCVH264Decoder.frame_buffer (Py.self w)) <= 1024 * 1024 ->
  Py.len (OpenCVH264Decoder.frame_buffer
            (Py.self (after_calls (OpenCVH264Decoder.decode_with step) ps w)))
    <= 1024 * 1024.
Proof.
  intros Hstep. revert w.
  induction ps as [|p ps IH]; intros w Hlen; [exact Hlen|].
  rewrite after_calls_cons. apply IH.
  now apply decode_with_raising_bounded.
Qed.

Lemma decode_raising_step_keeps_limit_witness :
  Py.len (OpenCVH264Decoder.frame_buffer
            (Py.self (after_calls
                        (OpenCVH264Decoder.decode_with
                           (fun _ => Py.Raise (Py.RuntimeError "no codec")))
                        [["001"%byte]; []; ["002"%byte; "003"%byte]]
                        (Py.World OpenCVH264Decoder.__init__ []))))
    <= 1024 * 1024.
Proof.
  apply (decode_raising_step_keeps_limit
           (fun _ => Py.Raise (Py.RuntimeError "no codec"))
           [["001"%byte]; []; ["002"%byte; "003"%byte]]
           (Py.World OpenCVH264Decoder.__init__ [])).
  - intros b. eexists. reflexivity.
  - vm_compute. discriminate.
Defined.

(** X7: after any run of [decode] calls, whatever the decode step does,
    the buffer is either the initial buffer followed by all the packets, or
    exactly the packets received since some point of the run: bytes are
    dropped only by emptying the whole buffer, and never reordered. *)
Theorem decode_buffer_is_packet_suffix
    (step : Py.bytes -> Py.outcome (list DecodedFrame)) (ps : list Py.bytes) :
  forall w,
    OpenCVH264Decoder.frame_buffer
      (Py.self (after_calls (OpenCVH264Decoder.decode_with step) ps w))
      = OpenCVH264Decoder.frame_buffer (Py.self w) ++ List.concat ps
    \/
    exists ps1 ps2,
      ps = ps1 ++ ps2 /\
      OpenCVH264Decoder.frame_buffer
        (Py.self (after_calls (OpenCVH264Decoder.decode_with step) ps w))
        = List.concat ps2.
Proof.
  induction ps as [|p ps IH]; intros w.
  - left. cbn. now rewrite app_nil_r.
  - rewrite after_calls_cons.
    destruct (decode_with_summary step p w) as (fs & w1 & E & _ & Hb & _).
    rewrite E. cbn [snd].
    destruct (IH w1) as [H | (ps1 & ps2 & -> & H)].
    + destruct Hb as [Hb | Hb]; rewrite Hb in H.
      * left. rewrite H. cbn [List.concat]. now rewrite app_assoc.
      * right. exists [p], ps. split; [reflexivity | exact H].
    + right. exists (p :: ps1), ps2. split; [reflexivity | exact H].
Qed.

(** X8: with [use_fallback] false, a run of calls on the facade
    [H264Decoder] gives the same outcomes as the same run on its inner
    [OpenCVH264Decoder], leaves the inner decoder and the effect trace as
    that run leaves them, and leaves [use_fallback] false. *)
Theorem facade_delegates_when_not_fallback
    (ps : list Py.bytes) (w : Py.world H264Decoder.t) :
  H264Decoder.use_fallback (Py.self w) = false ->
  let inner := Py.World (H264Decoder.decoder (Py.self w)) (Py.trace w) in
  outcomes_of H264Decoder.decode ps w
    = outcomes_of OpenCVH264Decoder.decode ps inner /\
  H264Decoder.decoder (Py.self (after_calls H264Decoder.decode ps w))
    = Py.self (after_calls OpenCVH264Decoder.decode ps inner) /\
  Py.trace (after_calls H264Decoder.decode ps w)
    = Py.trace (after_calls OpenCVH264Decoder.decode ps inner) /\
  H264Decoder.use_fallback (Py.self (after_calls H264Decoder.decode ps w)) = false.
Proof.
  intros Hfb inner. subst inner. unfold outcomes_of, after_calls.
  rewrite run_facade_spec, run_decode_spec, Hfb. repeat split.
Qed.

Lemma facade_delegates_when_not_fallback_witness :
  let w := Py.World (H264Decoder.Build (OpenCVH264Decoder.Build ["001"%byte] []) false) [] in
  let ps := [["002"%byte]; []; ["003"%byte]] in
  let inner := Py.World (H264Decoder.decoder (Py.self w)) (Py.trace w) in
  outcomes_of H264Decoder.decode ps w
    = outcomes_of OpenCVH264Decoder.decode ps inner /\
  H264Decoder.decoder (Py.self (after_calls H264Decoder.decode ps w))
    = Py.self (after_calls OpenCVH264Decoder.decode ps inner) /\
  Py.trace (after_calls H264Decoder.decode ps w)
    = Py.trace (after_calls OpenCVH264Decoder.decode ps inner) /\
  H264Decoder.use_fallback (Py.self (after_calls H264Decoder.decode ps w)) = false.
Proof.
  intros w ps.
  apply (facade_delegates_when_not_fallback ps w).
  reflexivity.
Defined.

(** X9: no run of [H264Decoder.decode] calls changes [use_fallback]: a
    facade stays in the mode it was in. *)
Theorem facade_never_changes_mode
    (ps : list Py.bytes) (w : Py.world H264Decoder.t) :
  H264Decoder.use_fallback (Py.self (after_calls H264Decoder.decode ps w))
  = H264Decoder.use_fallback (Py.self w).
Proof.
  unfold after_calls. rewrite run_facade_spec. cbn [snd].
  now destruct (H264Decoder.use_fallback (Py.self w)) eqn:E.
Qed.

(** ** More on create_dummy_frame *)

Lemma gradient_row_range (width : Z) :
  Forall (fun v => 0 <= v <= 255) (gradient_row width).
Proof.
  unfold gradient_row.
  destruct (Np.linspace _ _ width) as [vals|e]; [|constructor].
  apply Forall_forall. intros v Hv. apply in_map_iff in Hv.
  destruct Hv as (x & <- & _). unfold Np.to_uint8.
  pose proof (Z.mod_pos_bound (Np.trunc x) 256 ltac:(lia)). lia.
Qed.

Lemma gradient_row_last (width : Z) :
  2 <= width -> width * 8 <= Np.intp_max ->
  last (gradient_row width) 0 = 255.
Proof.
  intros Hw Hw8. unfold gradient_row, Np.linspace.
  replace (width <? 0) with false by (symmetry; apply Z.ltb_ge; lia).
  rewrite arange_returns by lia.
  replace (1 <? width) with true by (symmetry; apply Z.ltb_lt; lia).
  cbv zeta. unfold Np.set_last. rewrite map_app. cbn [map].
  rewrite last_last. vm_compute. reflexivity.
Qed.







(** ** tello_state.py: restore_terminal and report *)

Section TerminalFacts.
Import Py TelloState.
Variable curses_raises : terminal -> curses_call -> option exn.

Lemma restore_terminal_spec (w : world terminal) :
  exists calls,
    restore_terminal curses_raises w
      = (Return tt, World (self w ++ calls) (trace w)) /\
    (calls = [(Echo, false)] \/
     calls = [(Echo, true); (Nocbreak, false)] \/
     exists b, calls = [(Echo, true); (Nocbreak, true); (Endwin, b)]).
Proof.
  unfold restore_terminal, try_except, bind, curses, ret.
  destruct (curses_raises (self w) Echo) as [e1|] eqn:E1; cbn [self trace].
  - exists [(Echo, false)]. split; [reflexivity | now left].
  - destruct (curses_raises (self w ++ [(Echo, true)]) Nocbreak) as [e2|] eqn:E2;
      cbn [self trace].
    + exists [(Echo, true); (Nocbreak, false)].
      rewrite <- app_assoc. split; [reflexivity | right; now left].
    + destruct (curses_raises ((self w ++ [(Echo, true)]) ++ [(Nocbreak, true)]) Endwin)
        as [e3|] eqn:E3; cbn [self trace].
      * exists [(Echo, true); (Nocbreak, true); (Endwin, false)].
        rewrite <- !app_assoc. split; [reflexivity | right; right; now eexists].
      * exists [(Echo, true); (Nocbreak, true); (Endwin, true)].
        rewrite <- !app_assoc. split; [reflexivity | right; right; now eexists].
Qed.

(** The handler of [report]: restore the terminal, then print. *)
Lemma report_handler_spec (msg : string) (w : world terminal) :
  exists b rest,
    bind (restore_terminal curses_raises) (fun _ => print msg) w
      = (Return tt,
         World (self w ++ (Echo, b) :: rest) (trace w ++ [Print msg])).
Proof.
  unfold bind at 1.
  destruct (restore_terminal_spec w) as (calls & -> & Hcalls).
  unfold print. cbn [self trace].
  destruct Hcalls as [-> | [-> | [b ->]]]; eexists _, _; reflexivity.
Qed.
End TerminalFacts.

(** X13: [restore_terminal] never raises and prints nothing, whatever the
    curses calls do; it attempts [echo], [nocbreak] and [endwin] in that
    order and stops at the first one that fails, so [endwin] is attempted
    only after [echo] and [nocbreak] have both succeeded. *)
Theorem restore_terminal_never_raises
    (curses_raises : TelloState.terminal -> TelloState.curses_call -> option Py.exn)
    (w : Py.world TelloState.terminal) :
  exists calls,
    TelloState.restore_terminal curses_raises w
      = (Py.Return tt, Py.World (Py.self w ++ calls) (Py.trace w)) /\
    (calls = [(TelloState.Echo, false)] \/
     calls = [(TelloState.Echo, true); (TelloState.Nocbreak, false)] \/
     exists b,
       calls = [(TelloState.Echo, true); (TelloState.Nocbreak, true);
                (TelloState.Endwin, b)]).
Proof. apply restore_terminal_spec. Qed.

(** X14: [report] never raises, whatever the curses calls do, and the
    message is never lost: either [clear], [addstr(0, 0, msg)] and
    [refresh] all succeed on the window and nothing is printed, or one of
    them fails, the terminal restoration is attempted (starting with
    [echo]) and the message is printed once. *)
Theorem report_draws_or_prints
    (curses_raises : TelloState.terminal -> TelloState.curses_call -> option Py.exn)
    (stdscr : TelloState.window) (msg : string)
    (w : Py.world TelloState.terminal) :
  exists w',
    TelloState.report curses_raises stdscr msg w = (Py.Return tt, w') /\
    ((Py.self w' = Py.self w ++ [(TelloState.Clear stdscr, true);
                                 (TelloState.Addstr stdscr 0 0 msg, true);
                                 (TelloState.Refresh stdscr, true)] /\
      Py.trace w' = Py.trace w)
     \/
     (exists drawn c b rest,
         Py.self w' = Py.self w ++ drawn ++ (c, false) :: (TelloState.Echo, b) :: rest /\
         Forall succeeded drawn /\
         Py.trace w' = Py.trace w ++ [Py.Print msg])).
Proof.
  unfold TelloState.report, Py.try_except.
  unfold Py.bind at 1 2. unfold TelloState.curses at 1.
  destruct (curses_raises (Py.self w) (TelloState.Clear stdscr)) as [e1|] eqn:E1.
  - destruct (report_handler_spec curses_raises msg
                (Py.World (Py.self w ++ [(TelloState.Clear stdscr, false)]) (Py.trace w)))
      as (b & rest & ->).
    eexists. split; [reflexivity|]. right.
    exists [], (TelloState.Clear stdscr), b, rest. cbn [Py.self Py.trace app].
    rewrite <- app_assoc. repeat split. constructor.
  - unfold TelloState.curses at 1. cbn [Py.self Py.trace].
    destruct (curses_raises (Py.self w ++ [(TelloState.Clear stdscr, true)])
                (TelloState.Addstr stdscr 0 0 msg)) as [e2|] eqn:E2.
    + destruct (report_handler_spec curses_raises msg
                  (Py.World ((Py.self w ++ [(TelloState.Clear stdscr, true)])
                               ++ [(TelloState.Addstr stdscr 0 0 msg, false)])
                            (Py.trace w)))
        as (b & rest & ->).
      eexists. split; [reflexivity|]. right.
      exists [(TelloState.Clear stdscr, true)], (TelloState.Addstr stdscr 0 0 msg), b, rest.
      cbn [Py.self Py.trace app]. rewrite <- !app_assoc.
      repeat split. repeat constructor.
    + unfold TelloState.curses. cbn [Py.self Py.trace].
      destruct (curses_raises
                  ((Py.self w ++ [(TelloState.Clear stdscr, true)])
                     ++ [(TelloState.Addstr stdscr 0 0 msg, true)])
                  (TelloState.Refresh stdscr)) as [e3|] eqn:E3.
      * destruct (report_handler_spec curses_raises msg
                    (Py.World (((Py.self w ++ [(TelloState.Clear stdscr, true)])
                                  ++ [(TelloState.Addstr stdscr 0 0 msg, true)])
                                 ++ [(TelloState.Refresh stdscr, false)])
                              (Py.trace w)))
          as (b & rest & ->).
        eexists. split; [reflexivity|]. right.
        exists [(TelloState.Clear stdscr, true); (TelloState.Addstr stdscr 0 0 msg, true)],
               (TelloState.Refresh stdscr), b, rest.
        cbn [Py.self Py.trace app]. rewrite <- !app_assoc.
        repeat split. repeat constructor.
      * eexists. split; [reflexivity|]. left.
        cbn [Py.self Py.trace]. rewrite <- !app_assoc. split; reflexivity.
Qed.

(** X15: on a terminal where every curses call succeeds, [report] clears
    the window, writes the message at row 0, column 0, refreshes, and
    prints nothing; the terminal is not restored. *)
Theorem report_draws_on_working_terminal
    (curses_raises : TelloState.terminal -> TelloState.curses_call -> option Py.exn)
    (stdscr : TelloState.window) (msg : string)
    (w : Py.world TelloState.terminal) :
  (forall history c, curses_raises history c = None) ->
  TelloState.report curses_raises stdscr msg w
  = (Py.Return tt,
     Py.World (Py.self w ++ [(TelloState.Clear stdscr, true);
                             (TelloState.Addstr stdscr 0 0 msg, true);
                             (TelloState.Refresh stdscr, true)])
              (Py.trace w)).
Proof.
  intros Hok.
  unfold TelloState.report, Py.try_except, Py.bind, TelloState.curses.
  rewrite Hok. cbn [Py.self Py.trace]. rewrite Hok. cbn [Py.self Py.trace].
  rewrite Hok. now rewrite <- !app_assoc.
Qed.

Lemma report_draws_on_working_terminal_witness :
  TelloState.report (fun _ _ => None) (TelloState.Window 0) "Tello State:"
    (Py.World [] [])
  = (Py.Return tt,
     Py.World ([] ++ [(TelloState.Clear (TelloState.Window 0), true);
                      (TelloState.Addstr (TelloState.Window 0) 0 0 "Tello State:", true);
                      (TelloState.Refresh (TelloState.Window 0), true)])
              []).
Proof.
  apply (report_draws_on_working_terminal (fun _ _ => None) (TelloState.Window 0)
           "Tello State:" (Py.World [] [])).
  reflexivity.
Defined.

(** X16: on a terminal where every curses call fails, [report] still
    returns normally: [clear] fails, the restoration stops at the failed
    [echo], and the message is printed to standard output. *)
Theorem report_prints_without_terminal
    (curses_raises : TelloState.terminal -> TelloState.curses_call -> option Py.exn)
    (stdscr : TelloState.window) (msg : string)
    (w : Py.world TelloState.terminal) :
  (forall history c, exists e, curses_raises history c = Some e) ->
  TelloState.report curses_raises stdscr msg w
  = (Py.Return tt,
     Py.World (Py.self w ++ [(TelloState.Clear stdscr, false); (TelloState.Echo, false)])
              (Py.trace w ++ [Py.Print msg])).
Proof.
  intros Hfail.
  unfold TelloState.report, TelloState.restore_terminal, Py.try_except, Py.bind,
    TelloState.curses, Py.print, Py.ret.
  destruct (Hfail (Py.self w) (TelloState.Clear stdscr)) as [e1 ->].
  cbn [Py.self Py.trace].
  destruct (Hfail (Py.self w ++ [(TelloState.Clear stdscr, false)]) TelloState.Echo)
    as [e2 ->].
  cbn [Py.self Py.trace]. now rewrite <- app_assoc.
Qed.

Lemma report_prints_without_terminal_witness :
  TelloState.report (fun _ _ => Some (Py.RuntimeError "must call initscr() first"))
    (TelloState.Window 0) "Tello State:" (Py.World [] [])
  = (Py.Return tt,
     Py.World ([] ++ [(TelloState.Clear (TelloState.Window 0), false);
                      (TelloState.Echo, false)])
              ([] ++ [Py.Print "Tello State:"])).
Proof.
  apply (report_prints_without_terminal
           (fun _ _ => Some (Py.RuntimeError "must call initscr() first"))
           (TelloState.Window 0) "Tello State:" (Py.World [] [])).
  intros history c. eexists. reflexivity.
Defined.

(** ** quick_calibrate.py and calibrate_tello.py *)

Ltac drone_cases d :=
  let c := fresh "c" in let hb := fresh "hb" in
  let gb := fresh "gb" in let sc := fresh "sc" in
  destruct d as [c hb gb sc];
  unfold Calibration.quick_calibrate, Calibration.calibrate_tello,
    Calibration.new_tello, Calibration.call_get_battery,
    Calibration.call_send_command, Calibration.input;
  cbn [Calibration.connect Calibration.has_get_battery
       Calibration.get_battery Calibration.send_command].

(** X17: [quick_calibrate] never raises, whatever the drone does, and it
    sends the drone nothing or the single command "command": no flight
    command is ever sent. *)
Theorem quick_calibrate_contained (d : Calibration.tello) :
  exists result h,
    Calibration.quick_calibrate d script_start = (Py.Return result, Py.World h []) /\
    (commands_sent h = [] \/ commands_sent h = ["command"%string]).
Proof.
  drone_cases d.
  generalize (sc "command"%string). intros r.
  destruct c as [[]|e1], hb, gb as [[txt [[|]|e2]]|e3], r as [resp|e4];
    eexists _, _; (split; [vm_compute; reflexivity|]); vm_compute; auto.
Qed.

(** X18: when connecting fails, or when the drone reports a battery level
    below 50, [quick_calibrate] returns [False] without having sent any
    command to the drone and without sleeping. *)
Theorem quick_calibrate_refuses (d : Calibration.tello) :
  (exists e, Calibration.connect d = Py.Raise e) \/ reports_low_battery d ->
  exists h,
    Calibration.quick_calibrate d script_start = (Py.Return false, Py.World h []) /\
    commands_sent h = [] /\
    seconds_slept h = 0.
Proof.
  unfold reports_low_battery. drone_cases d.
  intros [[e He] | [Hhb (b & Hgb & Hlow)]].
  - subst c. eexists. split; [vm_compute; reflexivity|]. split; reflexivity.
  - subst hb gb. destruct b as [txt low]. cbn in Hlow. subst low.
    destruct c as [[]|e1];
      eexists; (split; [vm_compute; reflexivity|]); split; reflexivity.
Qed.

Lemma quick_calibrate_refuses_witness :
  exists h,
    Calibration.quick_calibrate
      (Calibration.Tello (Py.Return tt) true
         (Py.Return (Calibration.Battery "42" (Py.Return true)))
         (fun _ => Py.Return "ok"%string))
      script_start = (Py.Return false, Py.World h []) /\
    commands_sent h = [] /\
    seconds_slept h = 0.
Proof.
  apply (quick_calibrate_refuses
           (Calibration.Tello (Py.Return tt) true
              (Py.Return (Calibration.Battery "42" (Py.Return true)))
              (fun _ => Py.Return "ok"%string))).
  right. split; [reflexivity|]. eexists. split; reflexivity.
Defined.

(** X19: [quick_calibrate] returns [True] exactly when the drone
    connected, did not report a battery level below 50, and answered the
    command "command" without raising.  A battery that cannot be read, or
    a drone without [get_battery], does not stop the calibration. *)
Theorem quick_calibrate_true_iff (d : Calibration.tello) :
  fst (Calibration.quick_calibrate d script_start) = Py.Return true <->
  (Calibration.connect d = Py.Return tt /\
   ~ reports_low_battery d /\
   exists response, Calibration.send_command d "command" = Py.Return response).
Proof.
  unfold reports_low_battery. drone_cases d.
  generalize (sc "command"%string). intros r.
  destruct c as [[]|e1], hb, gb as [[txt [[|]|e2]]|e3], r as [resp|e4];
    (split;
     [ intros H; vm_compute in H;
       first
         [ discriminate H
         | split; [reflexivity|];
           split;
           [ intros [Hhb (b & Hgb & Hlow)];
             first [ discriminate Hhb | discriminate Hgb
                   | injection Hgb as <-; discriminate Hlow ]
           | eexists; reflexivity ] ]
     | intros (Hc & Hlow & resp' & Hr);
       first
         [ discriminate Hc
         | discriminate Hr
         | exfalso; apply Hlow; split; [reflexivity|];
           eexists; split; reflexivity
         | vm_compute; reflexivity ] ]).
Qed.

(** X20: whenever [quick_calibrate] returns [True] it has sent exactly the
    one command "command" and has slept 16 seconds in all (one second
    after the command and fifteen one-second steps of the countdown). *)
Theorem quick_calibrate_success_trace (d : Calibration.tello) :
  fst (Calibration.quick_calibrate d script_start) = Py.Return true ->
  commands_sent (Py.self (snd (Calibration.quick_calibrate d script_start)))
    = ["command"%string] /\
  seconds_slept (Py.self (snd (Calibration.quick_calibrate d script_start))) = 16.
Proof.
  drone_cases d.
  generalize (sc "command"%string). intros r.
  destruct c as [[]|e1], hb, gb as [[txt [[|]|e2]]|e3], r as [resp|e4];
    intros H; vm_compute in H; try discriminate H;
    split; vm_compute; reflexivity.
Qed.

Lemma quick_calibrate_success_trace_witness :
  commands_sent
    (Py.self (snd (Calibration.quick_calibrate
                     (Calibration.Tello (Py.Return tt) false
                        (Py.Raise (Py.RuntimeError "unused"))
                        (fun _ => Py.Return "ok"%string))
                     script_start)))
    = ["command"%string] /\
  seconds_slept
    (Py.self (snd (Calibration.quick_calibrate
                     (Calibration.Tello (Py.Return tt) false
                        (Py.Raise (Py.RuntimeError "unused"))
                        (fun _ => Py.Return "ok"%string))
                     script_start))) = 16.
Proof.
  apply (quick_calibrate_success_trace
           (Calibration.Tello (Py.Return tt) false
              (Py.Raise (Py.RuntimeError "unused"))
              (fun _ => Py.Return "ok"%string))).
  vm_compute. reflexivity.
Defined.

Ltac tello_env d answer :=
  destruct d as [c hb gb sc];
  unfold Calibration.calibrate_tello,
    Calibration.new_tello, Calibration.call_get_battery,
    Calibration.call_send_command, Calibration.input;
  cbn [Calibration.connect Calibration.has_get_battery
       Calibration.get_battery Calibration.send_command];
  generalize (sc "command"%string) (sc "takeoff"%string) (sc "land"%string);
  generalize (answer "Press ENTER to continue..."%string)
             (answer "Run test flight? (1 for yes, 2 for no): "%string).

Ltac run_script := cbv -[String.eqb] in *.

Ltac settle :=
  run_script;
  repeat match goal with
         | H : _ /\ _ |- _ => destruct H
         | H : exists _, _ |- _ => destruct H
         | H : _ \/ _ |- _ => destruct H
         | H : String.eqb _ _ = true |- _ => apply String.eqb_eq in H; subst
         | H : String.eqb _ _ = false |- _ => apply String.eqb_neq in H
         | H : Py.Return _ = Py.Return ?y |- _ => is_var y; injection H as H; subst y
         end;
  run_script;
  try discriminate; try congruence; try tauto;
  try (exfalso;
       match goal with
       | H : ~ _ |- _ => apply H; repeat (split || eexists); reflexivity
       | H : _ -> False |- _ => apply H; repeat (split || eexists); reflexivity
       end);
  try (repeat split; solve [auto 6 | intuition congruence]).

(** The paths through [calibrate_tello], one goal each; [tac] settles a
    goal once its path is determined. *)
Ltac tello_paths tac :=
  let a1 := fresh "a1" in let a2 := fresh "a2" in
  let rc := fresh "rc" in let rt := fresh "rt" in let rl := fresh "rl" in
  intros a1 a2 rc rt rl; intros;
  repeat match goal with h := _ |- _ => subst h end;
  (destruct a1 as [?|?]; [|solve [tac]]);
  match goal with
  | c : Py.outcome unit |- _ => destruct c as [[]|?]; [|solve [tac]]
  end;
  match goal with
  | hb : bool, gb : Py.outcome Calibration.battery |- _ =>
      destruct hb; [destruct gb as [[? [[|]|?]]|?]|]
  end;
  try solve [tac];
  (destruct rc as [?|?]; [|solve [tac]]);
  (destruct a2 as [choice|?]; [|solve [tac]]);
  run_script;
  (destruct (String.eqb choice "1") eqn:?;
   [destruct rt as [?|?]; [destruct rl as [?|?]|]|]);
  solve [tac].

(** X21: whatever the drone and the user do, the commands that
    [calibrate_tello] sends are a prefix of "command", "takeoff", "land":
    a take-off is only sent after "command", and a landing only after a
    take-off. *)
Theorem calibrate_tello_command_order
    (d : Calibration.tello) (answer : string -> Py.outcome string) :
  let h := Py.self (snd (Calibration.calibrate_tello d answer script_start)) in
  commands_sent h = [] \/
  commands_sent h = ["command"%string] \/
  commands_sent h = ["command"; "takeoff"]%string \/
  commands_sent h = ["command"; "takeoff"; "land"]%string.
Proof.
  tello_env d answer. tello_paths settle.
Qed.

(** X22: when connecting fails, or when the drone reports a battery level
    below 50, [calibrate_tello] sends no command, does not sleep, and asks
    nothing beyond the first prompt. *)
Theorem calibrate_tello_refuses
    (d : Calibration.tello) (answer : string -> Py.outcome string) :
  (exists e, Calibration.connect d = Py.Raise e) \/ reports_low_battery d ->
  let h := Py.self (snd (Calibration.calibrate_tello d answer script_start)) in
  commands_sent h = [] /\
  seconds_slept h = 0 /\
  prompts_shown h = ["Press ENTER to continue..."%string].
Proof.
  unfold reports_low_battery. tello_env d answer. tello_paths settle.
Qed.

Lemma calibrate_tello_refuses_witness :
  let d := Calibration.Tello (Py.Return tt) true
             (Py.Return (Calibration.Battery "42" (Py.Return true)))
             (fun _ => Py.Return "ok"%string) in
  let h := Py.self (snd (Calibration.calibrate_tello d
                           (fun _ => Py.Return "1"%string) script_start)) in
  commands_sent h = [] /\
  seconds_slept h = 0 /\
  prompts_shown h = ["Press ENTER to continue..."%string].
Proof.
  intros d.
  apply (calibrate_tello_refuses d (fun _ => Py.Return "1"%string)).
  right. split; [reflexivity|]. eexists. split; reflexivity.
Defined.

(** X23: unless the user's answer to the test-flight prompt is exactly
    "1", [calibrate_tello] sends neither "takeoff" nor "land". *)
Theorem calibrate_tello_flight_needs_consent
    (d : Calibration.tello) (answer : string -> Py.outcome string) :
  answer "Run test flight? (1 for yes, 2 for no): "%string <> Py.Return "1"%string ->
  let h := Py.self (snd (Calibration.calibrate_tello d answer script_start)) in
  ~ In "takeoff"%string (commands_sent h) /\ ~ In "land"%string (commands_sent h).
Proof.
  tello_env d answer. tello_paths settle.
Qed.

Lemma calibrate_tello_flight_needs_consent_witness :
  let d := Calibration.Tello (Py.Return tt) false
             (Py.Raise (Py.RuntimeError "unused"))
             (fun _ => Py.Return "ok"%string) in
  let h := Py.self (snd (Calibration.calibrate_tello d
                           (fun _ => Py.Return "2"%string) script_start)) in
  ~ In "takeoff"%string (commands_sent h) /\ ~ In "land"%string (commands_sent h).
Proof.
  intros d.
  apply (calibrate_tello_flight_needs_consent d (fun _ => Py.Return "2"%string)).
  discriminate.
Defined.

(** X24: whenever [calibrate_tello] has sent "takeoff" and the drone
    answered it without raising, it also sends "land": the commands sent
    are then exactly "command", "takeoff", "land". *)
Theorem calibrate_tello_lands_after_takeoff
    (d : Calibration.tello) (answer : string -> Py.outcome string) :
  (exists response, Calibration.send_command d "takeoff" = Py.Return response) ->
  let h := Py.self (snd (Calibration.calibrate_tello d answer script_start)) in
  In "takeoff"%string (commands_sent h) ->
  commands_sent h = ["command"; "takeoff"; "land"]%string.
Proof.
  tello_env d answer. tello_paths settle.
Qed.

Lemma calibrate_tello_lands_after_takeoff_witness :
  let d := Calibration.Tello (Py.Return tt) false
             (Py.Raise (Py.RuntimeError "unused"))
             (fun _ => Py.Return "ok"%string) in
  let h := Py.self (snd (Calibration.calibrate_tello d
                           (fun _ => Py.Return "1"%string) script_start)) in
  commands_sent h = ["command"; "takeoff"; "land"]%string.
Proof.
  intros d.
  apply (calibrate_tello_lands_after_takeoff d (fun _ => Py.Return "1"%string)).
  - eexists. reflexivity.
  - vm_compute. auto.
Defined.

(** X25: in [calibrate_tello] the command "command" is sent outside any
    [try]: when the drone connected, did not report a low battery, and
    raises on "command", the function raises that same exception, having
    sent nothing else. *)
Theorem calibrate_tello_command_failure_escapes
    (d : Calibration.tello) (answer : string -> Py.outcome string)
    (entered : string) (e : Py.exn) :
  answer "Press ENTER to continue..."%string = Py.Return entered ->
  Calibration.connect d = Py.Return tt ->
  ~ reports_low_battery d ->
  Calibration.send_command d "command" = Py.Raise e ->
  fst (Calibration.calibrate_tello d answer script_start) = Py.Raise e /\
  commands_sent (Py.self (snd (Calibration.calibrate_tello d answer script_start)))
    = ["command"%string].
Proof.
  unfold reports_low_battery. tello_env d answer. tello_paths settle.
Qed.

Lemma calibrate_tello_command_failure_escapes_witness :
  let d := Calibration.Tello (Py.Return tt) false
             (Py.Raise (Py.RuntimeError "unused"))
             (fun _ => Py.Raise (Py.RuntimeError "timeout")) in
  fst (Calibration.calibrate_tello d (fun _ => Py.Return "1"%string) script_start)
    = Py.Raise (Py.RuntimeError "timeout") /\
  commands_sent
    (Py.self (snd (Calibration.calibrate_tello d (fun _ => Py.Return "1"%string)
                     script_start)))
    = ["command"%string].
Proof.
  intros d.
  apply (calibrate_tello_command_failure_escapes d (fun _ => Py.Return "1"%string)
           "1"%string (Py.RuntimeError "timeout")).
  - reflexivity.
  - reflexivity.
  - intros [Hhb _]. discriminate Hhb.
  - reflexivity.
Defined.

(** X26: a failure of "takeoff" or "land" never escapes
    [calibrate_tello]: when both prompts are answered and the drone
    answers "command", the function returns normally whatever the two
    flight commands do. *)
Theorem calibrate_tello_flight_failure_contained
    (d : Calibration.tello) (answer : string -> Py.outcome string)
    (entered chosen response : string) :
  answer "Press ENTER to continue..."%string = Py.Return entered ->
  answer "Run test flight? (1 for yes, 2 for no): "%string = Py.Return chosen ->
  Calibration.send_command d "command" = Py.Return response ->
  fst (Calibration.calibrate_tello d answer script_start) = Py.Return tt.
Proof.
  tello_env d answer. tello_paths settle.
Qed.

Lemma calibrate_tello_flight_failure_contained_witness :
  fst (Calibration.calibrate_tello
         (Calibration.Tello (Py.Return tt) false
            (Py.Raise (Py.RuntimeError "unused"))
            (fun cmd => if String.eqb cmd "command" then Py.Return "ok"%string
                        else Py.Raise (Py.RuntimeError "motor stop")))
         (fun _ => Py.Return "1"%string) script_start)
  = Py.Return tt.
Proof.
  apply (calibrate_tello_flight_failure_contained
           (Calibration.Tello (Py.Return tt) false
              (Py.Raise (Py.RuntimeError "unused"))
              (fun cmd => if String.eqb cmd "command" then Py.Return "ok"%string
                          else Py.Raise (Py.RuntimeError "motor stop")))
           (fun _ => Py.Return "1"%string) "1"%string "1"%string "ok"%string);
    reflexivity.
Defined.
